(** * fibonacci.py: the generator [generate_fibonacci] and the report [main]

    The script is embedded shallowly.  Python integers are unbounded, so they
    are [Z].  A Python list is a mutable object: the generator creates one,
    appends to it in a loop and returns a reference to it, and [main] reads it
    back through that reference.  The embedding therefore keeps a store of
    list objects and the text written to standard output, and threads both
    through a small state-and-exception monad. *)

From Stdlib Require Import Ascii String.
From stdpp Require Import gmap strings list fin_maps pretty.

Local Open Scope Z_scope.

(** ** The fragment of the Python runtime that the script uses *)

Module Py.

(** What can stop a computation.  [IndexError] is the Python exception of
    an out-of-range subscript.  [DanglingRef] is not a Python exception: it
    marks a reference to an object that the store does not hold, which the
    language rules out; it is kept apart so that the theorems below show it
    never happens. *)
Inductive exn : Set :=
| IndexError
| DanglingRef.

Inductive outcome (A : Type) : Type :=
| Ok (a : A)
| Raise (e : exn).
Arguments Ok {A} a.
Arguments Raise {A} e.

(** References to list objects. *)
Abbreviation loc := positive.

Record state : Type := State {
  heap : gmap loc (list Z);
  stdout : string
}.

Definition initial : state := State ∅ "".

Definition M (A : Type) : Type := state → outcome A * state.

Definition ret {A} (a : A) : M A := λ s, (Ok a, s).

Definition bind {A B} (m : M A) (k : A → M B) : M B :=
  λ s, match m s with
       | (Ok a, s') => k a s'
       | (Raise e, s') => (Raise e, s')
       end.

(** [xs[k]] on a list: a negative subscript counts from the end, and a
    subscript that is still outside [0, len) raises [IndexError]. *)
Definition list_getitem (xs : list Z) (k : Z) : outcome Z :=
  let len := Z.of_nat (length xs) in
  let k' := if k <? 0 then k + len else k in
  if (k' <? 0) || (len <=? k') then Raise IndexError
  else match xs !! Z.to_nat k' with
       | Some v => Ok v
       | None => Raise IndexError
       end.

(** A list display [[x1, ..., xn]]: a new object, at a reference that the
    store does not use yet. *)
Definition new_list (xs : list Z) : M loc :=
  λ s, let l := fresh (dom (heap s)) in
       (Ok l, State (<[l := xs]> (heap s)) (stdout s)).

(** [l[k]] through a reference. *)
Definition getitem (l : loc) (k : Z) : M Z :=
  λ s, match heap s !! l with
       | Some xs => (list_getitem xs k, s)
       | None => (Raise DanglingRef, s)
       end.

(** [l.append(v)]: the object is updated in place. *)
Definition append (l : loc) (v : Z) : M unit :=
  λ s, match heap s !! l with
       | Some xs => (Ok tt, State (<[l := xs ++ [v]]> (heap s)) (stdout s))
       | None => (Raise DanglingRef, s)
       end.

(** The elements of a list object, as iteration over it sees them when the
    loop body leaves the object alone. *)
Definition items (l : loc) : M (list Z) :=
  λ s, match heap s !! l with
       | Some xs => (Ok xs, s)
       | None => (Raise DanglingRef, s)
       end.

Definition newline : string := String "010"%char "".

(** [print(text)]: the text and a line break go to standard output. *)
Definition print (text : string) : M unit :=
  λ s, (Ok tt, State (heap s) (stdout s +:+ text +:+ newline)).

(** [for x in xs: body]. *)
Fixpoint for_each {A} (xs : list A) (body : A → M unit) : M unit :=
  match xs with
  | [] => ret tt
  | x :: xs' => bind (body x) (λ _, for_each xs' body)
  end.

(** [range(lo, hi)]: lo, lo+1, ..., hi-1, and nothing when hi <= lo. *)
Definition range (lo hi : Z) : list Z := seqZ lo (hi - lo).

(** [enumerate(xs)]: the elements paired with their positions from 0. *)
Definition enumerate {A} (xs : list A) : list (Z * A) :=
  zip (seqZ 0 (Z.of_nat (length xs))) xs.

(** [str(z)] as an f-string field renders it: decimal, a minus sign for
    negative numbers. *)
Definition str (z : Z) : string := pretty z.

(** [text * k] on strings; a count of 0 or less gives the empty string. *)
Definition str_mul (text : string) (k : Z) : string :=
  Nat.iter (Z.to_nat k) (String.append text) "".

(** Run a computation that returns a list reference and read the list it
    refers to in the final store. *)
Definition eval_list (m : M loc) (s : state) : outcome (list Z) :=
  match m s with
  | (Ok l, s') => match heap s' !! l with
                  | Some xs => Ok xs
                  | None => Raise DanglingRef
                  end
  | (Raise e, _) => Raise e
  end.

(** The state in which a computation leaves the runtime. *)
Definition exec {A} (m : M A) (s : state) : state := (m s).2.

(** The exit status of the interpreter after running a script body from
    the initial state: 0 when it runs to its end, 1 when an exception
    escapes. *)
Definition exit_status {A} (m : M A) : Z :=
  match m initial with
  | (Ok _, _) => 0
  | (Raise _, _) => 1
  end.

(** The lines of a text, each ended by a line break. *)
Fixpoint lines_from (cur : string) (text : string) : list string :=
  match text with
  | EmptyString => if decide (cur = "") then [] else [cur]
  | String c rest =>
      if decide (c = "010"%char) then cur :: lines_from "" rest
      else lines_from (cur +:+ String c "") rest
  end.

Definition splitlines (text : string) : list string := lines_from "" text.

End Py.

Import Py.

Notation "'let*' x ':=' m 'in' k" := (bind m (λ x, k))
  (at level 10, x name, m at level 100, k at level 200, only parsing).
Notation "m '>>' k" := (bind m (λ _, k))
  (at level 100, k at level 200, right associativity, only parsing).

(** ** The script *)

(** [generate_fibonacci(n)], lines 6-26. *)
Definition generate_fibonacci (n : Z) : M loc :=
  if n <=? 0 then new_list []
  else if n =? 1 then new_list [0]
  else
    let* fibonacci := new_list [0; 1] in
    for_each (range 2 n) (λ i,
      let* a := getitem fibonacci (i - 1) in
      let* b := getitem fibonacci (i - 2) in
      append fibonacci (a + b)) >>
    ret fibonacci.

(** [main()], lines 29-41. *)
Definition main : M unit :=
  let n := 20 in
  let* fib_numbers := generate_fibonacci n in
  print ("The first " +:+ str n +:+ " Fibonacci numbers are:") >>
  print (str_mul "-" 40) >>
  (let* elems := items fib_numbers in
   for_each (enumerate elems) (λ '(i, num),
     print ("F(" +:+ str i +:+ "): " +:+ str num))) >>
  print (str_mul "-" 40) >>
  let* last := getitem fib_numbers (-1) in
  print ("The " +:+ str n +:+ "th Fibonacci number is: " +:+ str last).

(** ** The Fibonacci numbers as the specification defines them

    F(0) = 0, F(1) = 1, F(k) = F(k-1) + F(k-2). *)
Fixpoint F (k : nat) : Z :=
  match k with
  | O => 0
  | S k' => match k' with
            | O => 1
            | S k'' => F k' + F k''
            end
  end.

(** F(0), ..., F(k-1), and the first [n] Fibonacci numbers for an integer
    count [n] (none when [n] is negative). *)
Definition fibs (k : nat) : list Z := F <$> seq 0 k.

Definition first_fibs (n : Z) : list Z := fibs (Z.to_nat n).


(** ** Auxiliary definitions for the proofs *)

(** The state after the object at [l] has been given the contents [xs]. *)
Definition with_list (s : state) (l : loc) (xs : list Z) : state :=
  State (<[l := xs]> (heap s)) (stdout s).

(** The state after [text] has been written to standard output. *)
Definition with_output (s : state) (text : string) : state :=
  State (heap s) (stdout s +:+ text).

(** One pass through the loop body of the generator, lines 23-24. *)
Definition loop_body (fibonacci : loc) (i : Z) : M unit :=
  let* a := getitem fibonacci (i - 1) in
  let* b := getitem fibonacci (i - 2) in
  append fibonacci (a + b).

(** The text made of the given lines, each ended by a line break. *)
Definition unlines (ts : list string) : string :=
  foldr (λ t rest, t +:+ newline +:+ rest) "" ts.

(** The separator of the report: 40 dashes. *)
Definition separator : string := "----------------------------------------".

(** The line of the report for element [i] with value F(i). *)
Definition labelled (i : Z) : string :=
  "F(" +:+ str i +:+ "): " +:+ str (F (Z.to_nat i)).

(** The lines of the report that the specification gives for N = 20. *)
Definition report : list string :=
  ["The first 20 Fibonacci numbers are:"; separator]
  ++ (labelled <$> seqZ 0 20)
  ++ [separator; "The 20th Fibonacci number is: 4181"].

(** ** Subscripts and the reference sequence *)

Section Subscript.

Lemma list_getitem_lookup (xs : list Z) (i : nat) (v : Z) :
  xs !! i = Some v → list_getitem xs (Z.of_nat i) = Ok v.
Proof.
  intros Hi. pose proof (lookup_lt_Some _ _ _ Hi) as Hlen.
  unfold list_getitem.
  replace (Z.of_nat i <? 0) with false by (symmetry; apply Z.ltb_ge; lia).
  replace (Z.of_nat i <? 0) with false by (symmetry; apply Z.ltb_ge; lia).
  replace (Z.of_nat (length xs) <=? Z.of_nat i) with false
    by (symmetry; apply Z.leb_gt; lia).
  simpl. by rewrite Nat2Z.id, Hi.
Qed.

Lemma list_getitem_last (xs : list Z) (v : Z) :
  list_getitem (xs ++ [v]) (-1) = Ok v.
Proof.
  unfold list_getitem. rewrite length_app. simpl length.
  replace (-1 <? 0) with true by reflexivity.
  replace (-1 + Z.of_nat (length xs + 1)) with (Z.of_nat (length xs)) by lia.
  replace (Z.of_nat (length xs) <? 0) with false
    by (symmetry; apply Z.ltb_ge; lia).
  replace (Z.of_nat (length xs + 1) <=? Z.of_nat (length xs)) with false
    by (symmetry; apply Z.leb_gt; lia).
  simpl. rewrite Nat2Z.id.
  by rewrite lookup_app_r, Nat.sub_diag by lia.
Qed.

Lemma F_step (k : nat) : F (S (S k)) = F (S k) + F k.
Proof. reflexivity. Qed.

Lemma F_nonneg (k : nat) : 0 ≤ F k.
Proof.
  enough (0 ≤ F k ∧ 0 ≤ F (S k)) by tauto.
  induction k as [|k [IH0 IH1]]; [simpl; lia|].
  split; [done|]. rewrite F_step. lia.
Qed.

Lemma length_fibs (k : nat) : length (fibs k) = k.
Proof. unfold fibs. by rewrite length_fmap, length_seq. Qed.

Lemma fibs_lookup (k i : nat) : (i < k)%nat → fibs k !! i = Some (F i).
Proof.
  intros Hi. unfold fibs. rewrite list_lookup_fmap.
  by rewrite lookup_seq_lt.
Qed.

Lemma fibs_snoc (k : nat) : fibs (S k) = fibs k ++ [F k].
Proof. unfold fibs. by rewrite seq_S, fmap_app. Qed.

Lemma fibs_take (j k : nat) : (j ≤ k)%nat → take j (fibs k) = fibs j.
Proof.
  intros Hjk. unfold fibs. rewrite <- fmap_take. f_equal.
  by rewrite take_seq, Nat.min_l.
Qed.

Lemma fibs_getitem (k i : nat) :
  (i < k)%nat → list_getitem (fibs k) (Z.of_nat i) = Ok (F i).
Proof. intros Hi. by apply list_getitem_lookup, fibs_lookup. Qed.

End Subscript.

(** ** What the generator does to the runtime state *)

Section Generator.

Lemma with_list_same (s : state) (l : loc) (xs : list Z) :
  heap s !! l = Some xs → with_list s l xs = s.
Proof.
  intros Hl. destruct s as [h out]. unfold with_list. simpl in *.
  by rewrite insert_id.
Qed.

Lemma with_list_twice (s : state) (l : loc) (xs ys : list Z) :
  with_list (with_list s l xs) l ys = with_list s l ys.
Proof. unfold with_list. simpl. by rewrite insert_insert_eq. Qed.

Lemma getitem_fibs (l : loc) (k i : nat) (s : state) :
  heap s !! l = Some (fibs k) →
  (i < k)%nat →
  getitem l (Z.of_nat i) s = (Ok (F i), s).
Proof. intros Hl Hi. unfold getitem. by rewrite Hl, fibs_getitem. Qed.

(** The loop body extends F(0..k-1) by F(k). *)
Lemma loop_body_spec (l : loc) (k : nat) (s : state) :
  (2 ≤ k)%nat →
  heap s !! l = Some (fibs k) →
  loop_body l (Z.of_nat k) s = (Ok tt, with_list s l (fibs (S k))).
Proof.
  intros Hk Hl. destruct k as [|[|k]]; [lia | lia |].
  unfold loop_body, bind.
  replace (Z.of_nat (S (S k)) - 1) with (Z.of_nat (S k)) by lia.
  replace (Z.of_nat (S (S k)) - 2) with (Z.of_nat k) by lia.
  rewrite (getitem_fibs l (S (S k)) (S k)) by (done || lia).
  rewrite (getitem_fibs l (S (S k)) k) by (done || lia).
  unfold append. rewrite Hl.
  by rewrite (fibs_snoc (S (S k))), F_step.
Qed.

(** Loop invariant: when the pass for index [k] starts, the list holds
    F(0..k-1); [m] further passes leave F(0..k+m-1). *)
Lemma loop_spec (l : loc) (m : nat) :
  ∀ (k : nat) (s : state),
    (2 ≤ k)%nat →
    heap s !! l = Some (fibs k) →
    for_each (seqZ (Z.of_nat k) (Z.of_nat m)) (loop_body l) s
    = (Ok tt, with_list s l (fibs (k + m))).
Proof.
  induction m as [|m IH]; intros k s Hk Hl.
  - simpl. unfold ret. rewrite Nat.add_0_r. by rewrite with_list_same.
  - rewrite seqZ_cons by lia. simpl for_each. unfold bind.
    rewrite loop_body_spec by done.
    replace (Z.succ (Z.of_nat k)) with (Z.of_nat (S k)) by lia.
    replace (Z.pred (Z.of_nat (S m))) with (Z.of_nat m) by lia.
    rewrite IH; [| lia | by apply lookup_insert_eq].
    by rewrite with_list_twice, Nat.add_succ_r.
Qed.

(** The generator allocates one list, leaves in it the first [n] Fibonacci
    numbers and returns the reference to it. *)
Lemma generate_fibonacci_spec (n : Z) (s : state) :
  generate_fibonacci n s
  = (Ok (fresh (dom (heap s))),
     with_list s (fresh (dom (heap s))) (first_fibs n)).
Proof.
  unfold generate_fibonacci, first_fibs.
  destruct (Z.leb_spec n 0) as [Hn|Hn].
  { replace (Z.to_nat n) with 0%nat by lia. reflexivity. }
  destruct (Z.eqb_spec n 1) as [->|Hn1]; [reflexivity|].
  unfold bind at 1. unfold new_list at 1.
  set (l := fresh (dom (heap s))).
  set (s1 := State (<[l := [0; 1]]> (heap s)) (stdout s)).
  unfold bind, range.
  replace (n - 2) with (Z.of_nat (Z.to_nat n - 2)) by lia.
  change 2 with (Z.of_nat 2) at 1.
  change (λ i : Z, _) with (loop_body l).
  rewrite (loop_spec l (Z.to_nat n - 2) 2 s1);
    [| lia | by apply lookup_insert_eq].
  unfold ret. subst s1. fold (with_list s l [0; 1]).
  rewrite with_list_twice. do 3 f_equal. lia.
Qed.

Lemma generate_fibonacci_eval (n : Z) (s : state) :
  eval_list (generate_fibonacci n) s = Ok (first_fibs n).
Proof.
  unfold eval_list. rewrite generate_fibonacci_spec. simpl.
  by rewrite lookup_insert_eq.
Qed.

End Generator.

(** ** The generator's contract *)

Section Contract.

(** C1. For a count n >= 0 and an index 0 <= i < n, element i of
    generate_fibonacci(n) is the Fibonacci number F(i) of the reference
    definition (F(0) = 0, F(1) = 1, F(k) = F(k-1) + F(k-2)), as an exact
    unbounded integer. *)
Theorem generate_fibonacci_elements (n i : Z) (s : state) :
  0 ≤ n →
  0 ≤ i < n →
  ∃ xs : list Z,
    eval_list (generate_fibonacci n) s = Ok xs
    ∧ list_getitem xs i = Ok (F (Z.to_nat i)).
Proof.
  intros Hn Hi. exists (first_fibs n). split.
  - apply generate_fibonacci_eval.
  - unfold first_fibs. rewrite <- (Z2Nat.id i) at 1 by lia.
    apply fibs_getitem. lia.
Qed.

Lemma generate_fibonacci_elements_witness :
  ∃ xs : list Z,
    eval_list (generate_fibonacci 10) initial = Ok xs
    ∧ list_getitem xs 7 = Ok 13.
Proof. apply (generate_fibonacci_elements 10 7 initial); lia. Defined.

(** C2. No integer count makes the generator fail, and for every count
    n <= 0, negative ones included, the list it returns is empty. *)
Theorem generate_fibonacci_nonpositive (n : Z) (s : state) :
  (∃ (l : loc) (s' : state) (xs : list Z),
     generate_fibonacci n s = (Ok l, s') ∧ heap s' !! l = Some xs)
  ∧ (n ≤ 0 → eval_list (generate_fibonacci n) s = Ok []).
Proof.
  split.
  - eexists _, _, _. split; [apply generate_fibonacci_spec|].
    apply lookup_insert_eq.
  - intros Hn. rewrite generate_fibonacci_eval. unfold first_fibs.
    by replace (Z.to_nat n) with 0%nat by lia.
Qed.

Lemma generate_fibonacci_nonpositive_witness :
  eval_list (generate_fibonacci (-3)) initial = Ok [].
Proof.
  apply (proj2 (generate_fibonacci_nonpositive (-3) initial)). lia.
Defined.

(** C3. For every count n >= 1 the returned list has exactly n elements. *)
Theorem generate_fibonacci_length (n : Z) (s : state) :
  1 ≤ n →
  ∃ xs : list Z,
    eval_list (generate_fibonacci n) s = Ok xs
    ∧ Z.of_nat (length xs) = n.
Proof.
  intros Hn. exists (first_fibs n). split.
  - apply generate_fibonacci_eval.
  - unfold first_fibs. rewrite length_fibs. lia.
Qed.

Lemma generate_fibonacci_length_witness :
  ∃ xs : list Z,
    eval_list (generate_fibonacci 6) initial = Ok xs
    ∧ Z.of_nat (length xs) = 6.
Proof. apply (generate_fibonacci_length 6 initial). lia. Defined.

(** C4. For n >= 2 and 2 <= i < n, the returned list satisfies
    result[i] = result[i-1] + result[i-2]. *)
Theorem generate_fibonacci_recurrence (n i : Z) (s : state) :
  2 ≤ n →
  2 ≤ i < n →
  ∃ (xs : list Z) (a b : Z),
    eval_list (generate_fibonacci n) s = Ok xs
    ∧ list_getitem xs (i - 1) = Ok a
    ∧ list_getitem xs (i - 2) = Ok b
    ∧ list_getitem xs i = Ok (a + b).
Proof.
  intros Hn Hi.
  exists (first_fibs n), (F (Z.to_nat (i - 1))), (F (Z.to_nat (i - 2))).
  split; [apply generate_fibonacci_eval|]. unfold first_fibs.
  assert (Hget : ∀ j : Z, 0 ≤ j < n →
    list_getitem (fibs (Z.to_nat n)) j = Ok (F (Z.to_nat j))).
  { intros j Hj. rewrite <- (Z2Nat.id j) at 1 by lia.
    apply fibs_getitem. lia. }
  rewrite !Hget by lia. repeat split.
  replace (Z.to_nat i) with (S (S (Z.to_nat (i - 2)))) by lia.
  replace (Z.to_nat (i - 1)) with (S (Z.to_nat (i - 2))) by lia.
  by rewrite F_step.
Qed.

Lemma generate_fibonacci_recurrence_witness :
  ∃ (xs : list Z) (a b : Z),
    eval_list (generate_fibonacci 9) initial = Ok xs
    ∧ list_getitem xs (5 - 1) = Ok a
    ∧ list_getitem xs (5 - 2) = Ok b
    ∧ list_getitem xs 5 = Ok (a + b).
Proof. apply (generate_fibonacci_recurrence 9 5 initial); lia. Defined.

(** C5. The generator is deterministic and has no side effect: the list
    it returns is the same whatever objects and output the runtime
    already holds, so two calls with the same count give equal lists; a
    call writes nothing to standard output, leaves every object that
    existed before as it was, and returns a reference to a new object. *)
Theorem generate_fibonacci_pure (n : Z) (s1 s2 : state) :
  eval_list (generate_fibonacci n) s1 = eval_list (generate_fibonacci n) s2
  ∧ eval_list (generate_fibonacci n) (exec (generate_fibonacci n) s1)
    = eval_list (generate_fibonacci n) s1
  ∧ stdout (exec (generate_fibonacci n) s1) = stdout s1
  ∧ heap s1 ⊆ heap (exec (generate_fibonacci n) s1)
  ∧ ∃ l : loc,
      (generate_fibonacci n s1).1 = Ok l ∧ heap s1 !! l = None.
Proof.
  assert (Hnew : heap s1 !! fresh (dom (heap s1)) = None).
  { apply not_elem_of_dom, is_fresh. }
  rewrite !generate_fibonacci_eval. unfold exec.
  rewrite generate_fibonacci_spec. simpl.
  repeat split; [by apply insert_subseteq|]. by eexists.
Qed.

(** C6. generate_fibonacci(20) is the list 0, 1, 1, 2, ..., 2584, 4181,
    and its last element is 4181. *)
Theorem generate_fibonacci_20 (s : state) :
  eval_list (generate_fibonacci 20) s
  = Ok [0; 1; 1; 2; 3; 5; 8; 13; 21; 34; 55; 89; 144; 233; 377; 610; 987;
        1597; 2584; 4181]
  ∧ (∃ xs : list Z,
       eval_list (generate_fibonacci 20) s = Ok xs
       ∧ list_getitem xs (-1) = Ok 4181).
Proof.
  rewrite generate_fibonacci_eval. split; [reflexivity|].
  by eexists.
Qed.

(** C7. generate_fibonacci(1) is the one-element list [0]. *)
Theorem generate_fibonacci_1 (s : state) :
  eval_list (generate_fibonacci 1) s = Ok [0].
Proof. by rewrite generate_fibonacci_eval. Qed.

(** C10. For 0 <= m <= n, generate_fibonacci(m) is the first m elements of
    generate_fibonacci(n): it has exactly m elements, and they are the
    elements of generate_fibonacci(n) at positions 0, ..., m-1, so a larger
    count only adds elements at the end. *)
Theorem generate_fibonacci_prefix (m n : Z) (s s' : state) :
  0 ≤ m ≤ n →
  ∃ xs ys : list Z,
    eval_list (generate_fibonacci m) s = Ok xs
    ∧ eval_list (generate_fibonacci n) s' = Ok ys
    ∧ Z.of_nat (length xs) = m
    ∧ xs = take (Z.to_nat m) ys.
Proof.
  intros Hmn. exists (first_fibs m), (first_fibs n).
  rewrite !generate_fibonacci_eval. repeat split.
  - unfold first_fibs. rewrite length_fibs. lia.
  - unfold first_fibs. rewrite fibs_take; [done | lia].
Qed.

Lemma generate_fibonacci_prefix_witness :
  ∃ xs ys : list Z,
    eval_list (generate_fibonacci 4) initial = Ok xs
    ∧ eval_list (generate_fibonacci 9) initial = Ok ys
    ∧ Z.of_nat (length xs) = 4
    ∧ xs = take (Z.to_nat 4) ys.
Proof. apply (generate_fibonacci_prefix 4 9 initial initial). lia. Defined.

End Contract.

(** ** What the report does to the runtime state *)

Section Report.

Lemma str_app_assoc (a b c : string) : (a +:+ b) +:+ c = a +:+ b +:+ c.
Proof.
  induction a as [|ch a IH]; [done|].
  change (String ch ((a +:+ b) +:+ c) = String ch (a +:+ b +:+ c)).
  by f_equal.
Qed.

Lemma bind_Ok {A B} (m : M A) (k : A → M B) (s s' : state) (a : A) :
  m s = (Ok a, s') → bind m k s = k a s'.
Proof. intros Hm. unfold bind. by rewrite Hm. Qed.

Lemma print_spec (text : string) (s : state) :
  print text s = (Ok tt, with_output s (text +:+ newline)).
Proof. reflexivity. Qed.

Lemma with_output_twice (s : state) (a b : string) :
  with_output (with_output s a) b = with_output s (a +:+ b).
Proof. unfold with_output. simpl. by rewrite str_app_assoc. Qed.

Lemma with_output_empty (s : state) : with_output s "" = s.
Proof.
  destruct s as [h out]. unfold with_output. simpl. f_equal.
  induction out as [|ch out IH]; [done|].
  change (String ch (out +:+ "") = String ch out). by f_equal.
Qed.

(** A loop whose body only prints writes one line per element and cannot
    fail. *)
Lemma for_each_print {A} (body : A → M unit) (line : A → string)
    (xs : list A) :
  (∀ x, body x = print (line x)) →
  ∀ s, for_each xs body s = (Ok tt, with_output s (unlines (line <$> xs))).
Proof.
  intros Hbody. induction xs as [|x xs IH]; intros s; simpl.
  - unfold ret. by rewrite with_output_empty.
  - rewrite (bind_Ok _ _ s _ tt (eq_trans (f_equal (λ m, m s) (Hbody x))
                                   (print_spec _ s))).
    rewrite IH, with_output_twice. by rewrite str_app_assoc.
Qed.

(** The report, from any state of the runtime: the generator's list is
    allocated, the report text is added to standard output, and no
    exception is raised. *)
Lemma main_spec (s : state) :
  main s
  = (Ok tt,
     with_output (with_list s (fresh (dom (heap s))) (first_fibs 20))
                 (unlines report)).
Proof.
  unfold main.
  rewrite (bind_Ok _ _ _ _ _ (generate_fibonacci_spec 20 s)).
  set (l := fresh (dom (heap s))). set (s0 := with_list s l (first_fibs 20)).
  assert (Hl : ∀ out, heap (with_output s0 out) !! l = Some (first_fibs 20)).
  { intros out. simpl. apply lookup_insert_eq. }
  rewrite (bind_Ok _ _ _ _ _ (print_spec _ s0)).
  rewrite (bind_Ok _ _ _ _ _ (print_spec _ _)), with_output_twice.
  erewrite bind_Ok; cycle 1.
  { erewrite bind_Ok; [| unfold items; by rewrite Hl].
    apply (for_each_print _ (λ p, "F(" +:+ str p.1 +:+ "): " +:+ str p.2)).
    by intros [i num]. }
  rewrite with_output_twice.
  rewrite (bind_Ok _ _ _ _ _ (print_spec _ _)), with_output_twice.
  erewrite bind_Ok; [| unfold getitem; rewrite Hl; reflexivity].
  rewrite print_spec, with_output_twice.
  reflexivity.
Qed.

End Report.

(** ** The default run *)

Section DefaultRun.

(** C8. The default run writes to standard output, in this order: the
    header line that says 20 numbers follow, a separator of exactly 40
    dashes, the 20 lines "F(i): value" for i = 0, ..., 19, the same
    separator again, and a summary line that contains 4181. *)
Theorem main_output :
  splitlines (stdout (exec main initial))
  = ["The first 20 Fibonacci numbers are:"; separator]
    ++ ((λ i : Z, "F(" +:+ str i +:+ "): " +:+ str (F (Z.to_nat i)))
          <$> seqZ 0 20)
    ++ [separator; "The 20th Fibonacci number is: " +:+ "4181"]
  ∧ length (seqZ 0 20) = 20%nat
  ∧ String.length separator = 40%nat
  ∧ separator = str_mul "-" 40
  ∧ stdout (exec main initial) = unlines report.
Proof.
  unfold exec. rewrite main_spec.
  repeat split; vm_compute; reflexivity.
Qed.

(** C9. The default run completes with exit status 0.  The list that the
    generator returns for 20 is not empty, so the subscript -1 of the
    summary line is in range and yields 4181; the report raises no
    exception, whatever the runtime held before. *)
Theorem main_exit_status :
  exit_status main = 0
  ∧ (∀ s : state, ∃ s' : state, main s = (Ok tt, s'))
  ∧ (∀ s : state, ∃ (l : loc) (s' : state) (xs : list Z),
       generate_fibonacci 20 s = (Ok l, s')
       ∧ heap s' !! l = Some xs
       ∧ xs ≠ []
       ∧ getitem l (-1) s' = (Ok 4181, s')).
Proof.
  split; [|split].
  - unfold exit_status. by rewrite main_spec.
  - intros s. eexists. apply main_spec.
  - intros s. eexists _, _, (first_fibs 20).
    split; [apply generate_fibonacci_spec|].
    assert (Hl : heap (with_list s (fresh (dom (heap s))) (first_fibs 20))
                 !! fresh (dom (heap s)) = Some (first_fibs 20))
      by apply lookup_insert_eq.
    split; [done|]. split; [done|].
    unfold getitem. by rewrite Hl.
Qed.

End DefaultRun.


(** ** Further properties of the generator and of the report *)

Section Subscripts.

Lemma list_getitem_negative (xs : list Z) (j : Z) :
  1 ≤ j ≤ Z.of_nat (length xs) →
  list_getitem xs (- j) = list_getitem xs (Z.of_nat (length xs) - j).
Proof.
  intros Hj. unfold list_getitem.
  destruct (Z.ltb_spec (- j) 0) as [_|?]; [|lia].
  destruct (Z.ltb_spec (Z.of_nat (length xs) - j) 0) as [?|_]; [lia|].
  by replace (- j + Z.of_nat (length xs)) with (Z.of_nat (length xs) - j)
    by lia.
Qed.

Lemma list_getitem_outside (xs : list Z) (i : Z) :
  Z.of_nat (length xs) ≤ i ∨ i < - Z.of_nat (length xs) →
  list_getitem xs i = Raise IndexError.
Proof.
  intros Hi. unfold list_getitem.
  destruct (Z.ltb_spec i 0) as [Hneg|Hpos].
  - destruct (Z.ltb_spec (i + Z.of_nat (length xs)) 0) as [_|?]; [done|lia].
  - destruct (Z.ltb_spec i 0) as [?|_]; [lia|].
    destruct (Z.leb_spec (Z.of_nat (length xs)) i) as [_|?]; [done|lia].
Qed.

Lemma F_succ_le (k : nat) : F k ≤ F (S k).
Proof.
  destruct k as [|k]; [simpl; lia|].
  rewrite F_step. pose proof (F_nonneg k). lia.
Qed.

Lemma F_mono (i j : nat) : (i ≤ j)%nat → F i ≤ F j.
Proof.
  induction 1 as [|j _ IH]; [lia|].
  pose proof (F_succ_le j). lia.
Qed.




(** A subscript applied to the list that the generator has just returned
    is the subscript on the first [n] Fibonacci numbers. *)
Lemma generate_fibonacci_getitem (n i : Z) (s : state) :
  (let* l := generate_fibonacci n in getitem l i) s
  = (list_getitem (first_fibs n) i,
     with_list s (fresh (dom (heap s))) (first_fibs n)).
Proof.
  rewrite (bind_Ok _ _ _ _ _ (generate_fibonacci_spec n s)).
  unfold getitem. simpl. by rewrite lookup_insert_eq.
Qed.

Lemma length_first_fibs (n : Z) :
  Z.of_nat (length (first_fibs n)) = Z.max 0 n.
Proof. unfold first_fibs. rewrite length_fibs. lia. Qed.


End Subscripts.

Section Extras.

(** X1. Every element of the list that the generator returns is a
    non-negative integer, for every count and from every state. *)
Theorem generate_fibonacci_nonnegative (n : Z) (s : state) :
  ∃ xs : list Z,
    eval_list (generate_fibonacci n) s = Ok xs ∧ Forall (λ v, 0 ≤ v) xs.
Proof.
  exists (first_fibs n). split; [apply generate_fibonacci_eval|].
  unfold first_fibs, fibs. apply Forall_fmap, Forall_forall.
  intros k _. apply F_nonneg.
Qed.

(** X2. The returned list is in non-decreasing order: for positions
    0 <= i <= j < n, result[i] <= result[j]. *)
Theorem generate_fibonacci_sorted (n i j : Z) (s : state) :
  0 ≤ i ≤ j →
  j < n →
  ∃ (xs : list Z) (a b : Z),
    eval_list (generate_fibonacci n) s = Ok xs
    ∧ list_getitem xs i = Ok a
    ∧ list_getitem xs j = Ok b
    ∧ a ≤ b.
Proof.
  intros Hij Hj.
  exists (first_fibs n), (F (Z.to_nat i)), (F (Z.to_nat j)).
  split; [apply generate_fibonacci_eval|]. unfold first_fibs.
  rewrite <- (Z2Nat.id i) at 1 by lia. rewrite <- (Z2Nat.id j) at 1 by lia.
  rewrite !fibs_getitem by lia. repeat split. apply F_mono. lia.
Qed.

Lemma generate_fibonacci_sorted_witness :
  ∃ (xs : list Z) (a b : Z),
    eval_list (generate_fibonacci 8) initial = Ok xs
    ∧ list_getitem xs 1 = Ok a
    ∧ list_getitem xs 2 = Ok b
    ∧ a ≤ b.
Proof. apply (generate_fibonacci_sorted 8 1 2 initial); lia. Defined.



(** X4. For every integer count, negative ones included, the returned list
    has max(0, n) elements. *)
Theorem generate_fibonacci_length_any (n : Z) (s : state) :
  ∃ xs : list Z,
    eval_list (generate_fibonacci n) s = Ok xs
    ∧ Z.of_nat (length xs) = Z.max 0 n.
Proof.
  exists (first_fibs n). split; [apply generate_fibonacci_eval|].
  apply length_first_fibs.
Qed.

(** X5. A negative subscript on the returned list counts from its end: for
    1 <= j <= n, generate_fibonacci(n)[-j] is F(n-j); in particular the last
    element, at -1, is F(n-1). *)
Theorem generate_fibonacci_from_end (n j : Z) (s : state) :
  1 ≤ j ≤ n →
  ((let* l := generate_fibonacci n in getitem l (- j)) s).1
  = Ok (F (Z.to_nat (n - j))).
Proof.
  intros Hj. rewrite generate_fibonacci_getitem. simpl.
  pose proof (length_first_fibs n) as Hlen.
  rewrite list_getitem_negative by lia. rewrite Hlen.
  replace (Z.max 0 n - j) with (Z.of_nat (Z.to_nat (n - j))) by lia.
  apply fibs_getitem. lia.
Qed.

Lemma generate_fibonacci_from_end_witness :
  ((let* l := generate_fibonacci 20 in getitem l (- 1)) initial).1
  = Ok 4181.
Proof. apply (generate_fibonacci_from_end 20 1 initial). lia. Defined.

(** X6. A subscript outside the returned list raises IndexError: any
    i >= max(0, n) and any i < -max(0, n).  For n <= 0 the list is empty, so
    every subscript raises it, the -1 of a "last element" included. *)
Theorem generate_fibonacci_index_error (n i : Z) (s : state) :
  Z.max 0 n ≤ i ∨ i < - Z.max 0 n →
  ((let* l := generate_fibonacci n in getitem l i) s).1 = Raise IndexError.
Proof.
  intros Hi. rewrite generate_fibonacci_getitem. simpl.
  apply list_getitem_outside. by rewrite length_first_fibs.
Qed.

Lemma generate_fibonacci_index_error_witness :
  ((let* l := generate_fibonacci 0 in getitem l (-1)) initial).1
  = Raise IndexError.
Proof. apply (generate_fibonacci_index_error 0 (-1) initial). lia. Defined.

End Extras.

Section Objects.

(** X7. Every call returns a list object of its own: two calls in a row
    give different references, and appending to the first list changes
    neither the second list nor what the second call returned. *)
Theorem generate_fibonacci_fresh_objects (m n v : Z) (s : state) :
  ∃ (l1 l2 : loc) (s' : state) (xs ys : list Z),
    (let* l1 := generate_fibonacci m in
     let* l2 := generate_fibonacci n in
     append l1 v >> ret (l1, l2)) s = (Ok (l1, l2), s')
    ∧ l1 ≠ l2
    ∧ eval_list (generate_fibonacci m) s = Ok xs
    ∧ eval_list (generate_fibonacci n) s = Ok ys
    ∧ heap s' !! l1 = Some (xs ++ [v])
    ∧ heap s' !! l2 = Some ys.
Proof.
  rewrite !generate_fibonacci_eval.
  rewrite (bind_Ok _ _ _ _ _ (generate_fibonacci_spec m s)).
  set (l1 := fresh (dom (heap s))).
  set (s1 := with_list s l1 (first_fibs m)).
  rewrite (bind_Ok _ _ _ _ _ (generate_fibonacci_spec n s1)).
  set (l2 := fresh (dom (heap s1))).
  assert (Hne : l2 ≠ l1).
  { intros Heq. apply (is_fresh (dom (heap s1))). fold l2. rewrite Heq.
    apply elem_of_dom. exists (first_fibs m). apply lookup_insert_eq. }
  assert (H1 : heap (with_list s1 l2 (first_fibs n)) !! l1
               = Some (first_fibs m)).
  { simpl. rewrite lookup_insert_ne by done. apply lookup_insert_eq. }
  unfold bind at 1, append. rewrite H1. unfold ret.
  eexists l1, l2, _, _, _. split; [reflexivity|].
  split; [done|]. split; [done|]. split; [done|]. simpl. split.
  - apply lookup_insert_eq.
  - rewrite lookup_insert_ne by done. apply lookup_insert_eq.
Qed.

(** X8. One pass of the loop body (lines 23-24) at index i, on a list of
    exactly i elements that ends in b, a, appends a + b and changes nothing
    else; it does so for any contents, not only for Fibonacci numbers. *)
Theorem loop_body_appends_sum (l : loc) (xs : list Z) (a b : Z) (s : state) :
  heap s !! l = Some (xs ++ [b; a]) →
  loop_body l (Z.of_nat (length (xs ++ [b; a]))) s
  = (Ok tt, with_list s l ((xs ++ [b; a]) ++ [a + b])).
Proof.
  intros Hl. rewrite length_app. simpl length. unfold loop_body.
  assert (Ha : list_getitem (xs ++ [b; a])
                 (Z.of_nat (length xs + 2)%nat - 1) = Ok a).
  { replace (Z.of_nat (length xs + 2)%nat - 1)
      with (Z.of_nat (S (length xs))) by lia.
    apply list_getitem_lookup.
    rewrite lookup_app_r by lia.
    by replace (S (length xs) - length xs)%nat with 1%nat by lia. }
  assert (Hb : list_getitem (xs ++ [b; a])
                 (Z.of_nat (length xs + 2)%nat - 2) = Ok b).
  { replace (Z.of_nat (length xs + 2)%nat - 2)
      with (Z.of_nat (length xs)) by lia.
    apply list_getitem_lookup.
    rewrite lookup_app_r by lia. by rewrite Nat.sub_diag. }
  erewrite bind_Ok; [| unfold getitem; rewrite Hl, Ha; reflexivity].
  erewrite bind_Ok; [| unfold getitem; rewrite Hl, Hb; reflexivity].
  unfold append. by rewrite Hl.
Qed.

Lemma loop_body_appends_sum_witness :
  loop_body 1%positive (Z.of_nat (length ([2] ++ [1; 3])))
    (State {[1%positive := [2] ++ [1; 3]]} "")
  = (Ok tt,
     with_list (State {[1%positive := [2] ++ [1; 3]]} "") 1%positive
       (([2] ++ [1; 3]) ++ [3 + 1])).
Proof.
  apply (loop_body_appends_sum 1%positive [2] 3 1
           (State {[1%positive := [2] ++ [1; 3]]} "")).
  reflexivity.
Defined.



(** X10. From any state of the runtime, the report adds its text after
    what standard output already holds and changes no list that existed:
    the store gains the one list of the 20 numbers, unchanged by the
    printing, and a second run prints the same report once more. *)
Theorem main_appends_report (s : state) :
  stdout (exec main s) = stdout s +:+ unlines report
  ∧ stdout (exec main (exec main s))
    = (stdout s +:+ unlines report) +:+ unlines report
  ∧ heap s ⊆ heap (exec main s)
  ∧ ∃ (l : loc) (xs : list Z),
      heap s !! l = None
      ∧ eval_list (generate_fibonacci 20) s = Ok xs
      ∧ heap (exec main s) = <[l := xs]> (heap s).
Proof.
  assert (Hnew : heap s !! fresh (dom (heap s)) = None).
  { apply not_elem_of_dom, is_fresh. }
  unfold exec. rewrite !main_spec. simpl.
  split; [done|]. split; [done|]. split; [by apply insert_subseteq|].
  eexists _, _. split; [exact Hnew|].
  split; [apply generate_fibonacci_eval | done].
Qed.

End Objects.
